(** Verification development for gamecode-backend, src/lib.rs:
    the data model of the LLM backend contract layer, its constructors and
    defaults, the retryability test on [BackendError], and the serde
    derive-generated (de)serialization of the request/response/event types. *)

From Stdlib Require Import ZArith NArith String List Bool Lia.
From Stdlib Require Import Strings.Byte Ascii Eqdep_dec.
Import ListNotations.
Open Scope string_scope.
Set Warnings "-register-all".

(* ------------------------------------------------------------------ *)
(** * Primitive carriers *)

(** [std::time::Duration]: whole seconds and sub-second nanoseconds. *)
Record Duration := mkDuration { secs : N; nanos : N }.

(** [Duration::from_millis]. *)
Definition Duration_from_millis (ms : N) : Duration :=
  {| secs := ms / 1000; nanos := (ms mod 1000) * 1000000 |}.

(** [Duration::as_millis]. *)
Definition Duration_as_millis (d : Duration) : N :=
  secs d * 1000 + nanos d / 1000000.

(** A finite IEEE binary float: (-1)^neg * mant * 2^exp. *)
Record finite_float := mkFinite { ff_neg : bool; ff_mant : Z; ff_exp : Z }.

(** An IEEE float value ([f32] or [f64]): finite, infinite, or NaN. *)
Inductive float :=
| FFinite (x : finite_float)
| FInf (neg : bool)
| FNaN.

(** The [f32] denoted by a positive decimal literal p/q in Rust source:
    round-to-nearest-even into a 24-bit significand (normal range). The
    exponent is chosen so that the truncated significand lies in
    [2^23, 2^24). *)
Definition f32_scaled (p q : positive) (e : Z) : Z * Z :=
  (* returns numerator and denominator of (p/q) / 2^e *)
  if (0 <=? e)%Z then (Zpos p, Zpos q * 2 ^ e)%Z
  else (Zpos p * 2 ^ (- e), Zpos q)%Z.

Definition f32_lit (p q : positive) : float :=
  let e0 := (Z.log2 (Zpos p) - Z.log2 (Zpos q) - 23)%Z in
  let e := if (fst (f32_scaled p q e0) / snd (f32_scaled p q e0) <? 2 ^ 23)%Z
           then (e0 - 1)%Z else e0 in
  let '(num, den) := f32_scaled p q e in
  let m := (num / den)%Z in
  let r := (num mod den)%Z in
  let m' := if (den <? 2 * r)%Z || ((2 * r =? den)%Z && Z.odd m) then (m + 1)%Z else m in
  if (m' =? 2 ^ 24)%Z
  then FFinite {| ff_neg := false; ff_mant := 2 ^ 23; ff_exp := e + 1 |}
  else FFinite {| ff_neg := false; ff_mant := m'; ff_exp := e |}.

(* ------------------------------------------------------------------ *)
(** * Data model (src/lib.rs) *)

(** [MessageRole]. *)
Inductive MessageRole := System | User | Assistant.

(** [serde_json::Number]: a non-negative or negative integer, or a finite
    float (serde_json never stores NaN or infinity in a [Number]). *)
Inductive JsonNumber :=
| PosInt (n : N)
| NegInt (p : positive)   (* the integer -p; serde_json stores only negatives here *)
| Float (f : finite_float).

(** [serde_json::Value]. *)
Inductive JsonValue :=
| JNull
| JBool (b : bool)
| JNumber (n : JsonNumber)
| JString (s : string)
| JArray (l : list JsonValue)
| JObject (m : list (string * JsonValue)).

(** [uuid::Uuid]: sixteen bytes. *)
Record Uuid := mkUuid { uuid_bytes : list byte; uuid_len : length uuid_bytes = 16%nat }.

(** [ToolCall]. *)
Record ToolCall := mkToolCall { tc_id : string; tc_name : string; tc_input : JsonValue }.

(** [Tool]. *)
Record Tool := mkTool { tool_name : string; tool_description : string; tool_input_schema : JsonValue }.

(** [ContentBlock]. *)
Inductive ContentBlock :=
| Text (s : string)
| ToolCallBlock (c : ToolCall)                  (* ContentBlock::ToolCall *)
| ToolResult (tool_call_id : string) (result : string).

(** [Message]. *)
Record Message := mkMessage { role : MessageRole; content : list ContentBlock }.

(** [InferenceConfig]. *)
Record InferenceConfig := mkInferenceConfig {
  temperature : option float;   (* Option<f32> *)
  top_p : option float;         (* Option<f32> *)
  max_tokens : option N }.      (* Option<u32> *)

(** [Usage]. *)
Record Usage := mkUsage { input_tokens : N; output_tokens : N; total_tokens : N }.

(** [BackendStatus]. *)
Inductive BackendStatus :=
| RetryAttempt (attempt max_attempts : N) (delay_ms : N) (reason : string)
| RateLimitedStatus (attempt max_attempts : N) (delay_ms : N)  (* BackendStatus::RateLimited *)
| NonRetryableError (message : string).

(** [StatusCallback = Arc<dyn Fn(BackendStatus) + Send + Sync>]. *)
Definition StatusCallback := BackendStatus -> unit.

(** [ChatRequest]. *)
Record ChatRequest := mkChatRequest {
  req_messages : list Message;
  req_model : option string;
  req_tools : option (list Tool);
  req_inference_config : option InferenceConfig;
  req_session_id : option Uuid;
  req_status_callback : option StatusCallback }.

(** [ChatResponse]. *)
Record ChatResponse := mkChatResponse {
  resp_message : Message;
  resp_tool_calls : list ToolCall;
  resp_usage : option Usage;
  resp_model : string;
  resp_session_id : option Uuid }.

(** [ChatStreamEvent]. *)
Inductive ChatStreamEvent :=
| Start (role : MessageRole)
| TextDelta (text : string)
| ToolCallStart (id name : string)
| ToolCallDelta (id input : string)
| ToolCallEnd (id : string)
| End (usage : option Usage).

(** [BackoffStrategy]. *)
Inductive BackoffStrategy :=
| Fixed
| Exponential (multiplier : N)   (* u32 *)
| Linear (increment : Duration).

(** [RetryConfig]. *)
Record RetryConfig := mkRetryConfig {
  max_retries : N;               (* usize *)
  initial_delay : Duration;
  backoff_strategy : BackoffStrategy;
  verbose : bool }.

(** [BackendError]. *)
Inductive BackendError :=
| UnsupportedModel (model : string)
| RateLimited
| ValidationError (message : string)
| AuthenticationError
| NetworkError (message : string)
| ProviderError (message : string)
| InternalError (message : string).

(* ------------------------------------------------------------------ *)
(** * Operations *)

(** [BackendError::is_retryable]:
    [matches!(self, RateLimited | NetworkError { .. })]. *)
Definition is_retryable (e : BackendError) : bool :=
  match e with
  | RateLimited | NetworkError _ => true
  | _ => false
  end.

(** [impl Default for RetryConfig]. *)
Definition RetryConfig_default : RetryConfig :=
  {| max_retries := 10;
     initial_delay := Duration_from_millis 2000;
     backoff_strategy := Exponential 3;
     verbose := false |}.

(** [impl Default for InferenceConfig]; the literals are [f32]. *)
Definition InferenceConfig_default : InferenceConfig :=
  {| temperature := Some (f32_lit 7 10);
     top_p := Some (f32_lit 9 10);
     max_tokens := Some 4096%N |}.

(** [Message::text]. *)
Definition Message_text (r : MessageRole) (text : string) : Message :=
  {| role := r; content := [Text text] |}.

(** [Message::with_tool_calls]: a vector holding the text block, extended
    with the tool calls mapped through [ContentBlock::ToolCall]. *)
Definition Message_with_tool_calls (r : MessageRole) (text : string)
    (tool_calls : list ToolCall) : Message :=
  let content0 := [Text text] in
  let content1 := (content0 ++ map ToolCallBlock tool_calls)%list in
  {| role := r; content := content1 |}.

(** [Message::tool_result]. *)
Definition Message_tool_result (tool_call_id result : string) : Message :=
  {| role := User;
     content := [ToolResult tool_call_id result] |}.

(* ------------------------------------------------------------------ *)
(** * The serde data model and the derived (de)serializers *)

(** A value of serde's data model, as a serializer receives it and a
    self-describing deserializer hands it back: one constructor per
    [Serializer] method used by the types of src/lib.rs. *)
Inductive sv :=
| SvBool (b : bool)
| SvU32 (n : N)
| SvU64 (n : N)
| SvI64 (z : Z)
| SvF32 (f : float)
| SvF64 (f : float)
| SvStr (s : string)
| SvBytes (l : list byte)
| SvUnit
| SvNone
| SvSome (v : sv)
| SvSeq (l : list sv)
| SvMap (l : list (sv * sv))
| SvStruct (name : string) (fields : list (string * sv))
| SvUnitVariant (ty var : string)
| SvNewtypeVariant (ty var : string) (v : sv)
| SvStructVariant (ty var : string) (fields : list (string * sv)).

Definition obind {A B} (m : option A) (f : A -> option B) : option B :=
  match m with Some a => f a | None => None end.
Notation "'let*' x ':=' m 'in' b" := (obind m (fun x => b))
  (at level 200, x binder, m at level 100, b at level 200).

(** Sequence deserialization: every element must deserialize. *)
Fixpoint traverse {X A} (de : X -> option A) (l : list X) : option (list A) :=
  match l with
  | [] => Some []
  | x :: t => let* a := de x in let* r := traverse de t in Some (a :: r)
  end.

(** Field lookup in a struct's field list (the derive's field visitor). *)
Fixpoint field (k : string) (fs : list (string * sv)) : option sv :=
  match fs with
  | [] => None
  | (k', v) :: t => if String.eqb k k' then Some v else field k t
  end.

(** Leaf impls from serde, serde_json and uuid. *)
Definition ser_string (s : string) : sv := SvStr s.
Definition de_string (v : sv) : option string :=
  match v with SvStr s => Some s | _ => None end.

Definition ser_u32 (n : N) : sv := SvU32 n.
Definition de_u32 (v : sv) : option N :=
  match v with SvU32 n => Some n | _ => None end.

Definition ser_f32 (f : float) : sv := SvF32 f.
Definition de_f32 (v : sv) : option float :=
  match v with SvF32 f => Some f | _ => None end.

Definition ser_option {A} (ser : A -> sv) (o : option A) : sv :=
  match o with None => SvNone | Some a => SvSome (ser a) end.
Definition de_option {A} (de : sv -> option A) (v : sv) : option (option A) :=
  match v with
  | SvNone | SvUnit => Some None
  | SvSome x => let* a := de x in Some (Some a)
  | _ => None
  end.

Definition ser_vec {A} (ser : A -> sv) (l : list A) : sv := SvSeq (map ser l).
Definition de_vec {A} (de : sv -> option A) (v : sv) : option (list A) :=
  match v with SvSeq l => traverse de l | _ => None end.

(** [Uuid] through a non-human-readable serializer: its sixteen bytes. *)
Definition ser_uuid (u : Uuid) : sv := SvBytes (uuid_bytes u).
Definition de_uuid (v : sv) : option Uuid :=
  match v with
  | SvBytes l =>
      match Nat.eq_dec (length l) 16 with
      | left H => Some (mkUuid l H)
      | right _ => None
      end
  | _ => None
  end.

(** [impl Serialize for serde_json::Value]. *)
Fixpoint ser_json (j : JsonValue) : sv :=
  match j with
  | JNull => SvUnit
  | JBool b => SvBool b
  | JNumber (PosInt n) => SvU64 n
  | JNumber (NegInt p) => SvI64 (Zneg p)
  | JNumber (Float f) => SvF64 (FFinite f)
  | JString s => SvStr s
  | JArray l => SvSeq (map ser_json l)
  | JObject m => SvMap (map (fun kv => (SvStr (fst kv), ser_json (snd kv))) m)
  end.

(** The [serde_json::Value] visitor: [visit_i64] keeps negatives as
    [NegInt] and others as [PosInt]; [visit_f64] yields [Null] for a
    non-finite float; map keys must be strings. *)
Fixpoint de_json (v : sv) : option JsonValue :=
  match v with
  | SvUnit | SvNone => Some JNull
  | SvSome x => de_json x
  | SvBool b => Some (JBool b)
  | SvU32 n | SvU64 n => Some (JNumber (PosInt n))
  | SvI64 z =>
      Some (JNumber (match z with Zneg p => NegInt p | _ => PosInt (Z.to_N z) end))
  | SvF32 f | SvF64 f =>
      Some (match f with FFinite x => JNumber (Float x) | _ => JNull end)
  | SvStr s => Some (JString s)
  | SvSeq l => let* r := traverse de_json l in Some (JArray r)
  | SvMap l =>
      let* r := traverse (fun kx => match kx with
                                    | (SvStr k, x) => let* a := de_json x in Some (k, a)
                                    | _ => None
                                    end) l in
      Some (JObject r)
  | _ => None
  end.

(** Struct fields as the derived [visit_map] reads them: a required field
    must be present; a missing [Option] field deserializes to [None]. *)
Definition req_field {A} (k : string) (fs : list (string * sv)) (de : sv -> option A)
    : option A :=
  let* v := field k fs in de v.
Definition opt_field {A} (k : string) (fs : list (string * sv)) (de : sv -> option A)
    : option (option A) :=
  match field k fs with None => Some None | Some v => de_option de v end.

(** [#[derive(Serialize, Deserialize)] enum MessageRole]. *)
Definition ser_role (r : MessageRole) : sv :=
  match r with
  | System => SvUnitVariant "MessageRole" "System"
  | User => SvUnitVariant "MessageRole" "User"
  | Assistant => SvUnitVariant "MessageRole" "Assistant"
  end.
Definition de_role (v : sv) : option MessageRole :=
  match v with
  | SvUnitVariant _ var =>
      if String.eqb var "System" then Some System
      else if String.eqb var "User" then Some User
      else if String.eqb var "Assistant" then Some Assistant
      else None
  | _ => None
  end.

(** [#[derive(Serialize, Deserialize)] struct ToolCall]. *)
Definition ser_toolcall (c : ToolCall) : sv :=
  SvStruct "ToolCall"
    [("id", ser_string (tc_id c)); ("name", ser_string (tc_name c));
     ("input", ser_json (tc_input c))].
Definition de_toolcall (v : sv) : option ToolCall :=
  match v with
  | SvStruct _ fs =>
      let* id := req_field "id" fs de_string in
      let* name := req_field "name" fs de_string in
      let* input := req_field "input" fs de_json in
      Some {| tc_id := id; tc_name := name; tc_input := input |}
  | _ => None
  end.

(** [#[derive(Serialize, Deserialize)] struct Tool]. *)
Definition ser_tool (t : Tool) : sv :=
  SvStruct "Tool"
    [("name", ser_string (tool_name t));
     ("description", ser_string (tool_description t));
     ("input_schema", ser_json (tool_input_schema t))].
Definition de_tool (v : sv) : option Tool :=
  match v with
  | SvStruct _ fs =>
      let* name := req_field "name" fs de_string in
      let* description := req_field "description" fs de_string in
      let* input_schema := req_field "input_schema" fs de_json in
      Some {| tool_name := name; tool_description := description;
              tool_input_schema := input_schema |}
  | _ => None
  end.

(** [#[derive(Serialize, Deserialize)] enum ContentBlock]: externally tagged. *)
Definition ser_block (b : ContentBlock) : sv :=
  match b with
  | Text s => SvNewtypeVariant "ContentBlock" "Text" (ser_string s)
  | ToolCallBlock c => SvNewtypeVariant "ContentBlock" "ToolCall" (ser_toolcall c)
  | ToolResult id r =>
      SvStructVariant "ContentBlock" "ToolResult"
        [("tool_call_id", ser_string id); ("result", ser_string r)]
  end.
Definition de_block (v : sv) : option ContentBlock :=
  match v with
  | SvNewtypeVariant _ var x =>
      if String.eqb var "Text" then let* s := de_string x in Some (Text s)
      else if String.eqb var "ToolCall" then let* c := de_toolcall x in Some (ToolCallBlock c)
      else None
  | SvStructVariant _ var fs =>
      if String.eqb var "ToolResult" then
        let* id := req_field "tool_call_id" fs de_string in
        let* r := req_field "result" fs de_string in
        Some (ToolResult id r)
      else None
  | _ => None
  end.

(** [#[derive(Serialize, Deserialize)] struct Message]. *)
Definition ser_message (m : Message) : sv :=
  SvStruct "Message"
    [("role", ser_role (role m)); ("content", ser_vec ser_block (content m))].
Definition de_message (v : sv) : option Message :=
  match v with
  | SvStruct _ fs =>
      let* r := req_field "role" fs de_role in
      let* c := req_field "content" fs (de_vec de_block) in
      Some {| role := r; content := c |}
  | _ => None
  end.

(** [#[derive(Serialize, Deserialize)] struct InferenceConfig]. *)
Definition ser_inference_config (c : InferenceConfig) : sv :=
  SvStruct "InferenceConfig"
    [("temperature", ser_option ser_f32 (temperature c));
     ("top_p", ser_option ser_f32 (top_p c));
     ("max_tokens", ser_option ser_u32 (max_tokens c))].
Definition de_inference_config (v : sv) : option InferenceConfig :=
  match v with
  | SvStruct _ fs =>
      let* t := opt_field "temperature" fs de_f32 in
      let* p := opt_field "top_p" fs de_f32 in
      let* m := opt_field "max_tokens" fs de_u32 in
      Some {| temperature := t; top_p := p; max_tokens := m |}
  | _ => None
  end.

(** [#[derive(Serialize, Deserialize)] struct Usage]. *)
Definition ser_usage (u : Usage) : sv :=
  SvStruct "Usage"
    [("input_tokens", ser_u32 (input_tokens u));
     ("output_tokens", ser_u32 (output_tokens u));
     ("total_tokens", ser_u32 (total_tokens u))].
Definition de_usage (v : sv) : option Usage :=
  match v with
  | SvStruct _ fs =>
      let* i := req_field "input_tokens" fs de_u32 in
      let* o := req_field "output_tokens" fs de_u32 in
      let* t := req_field "total_tokens" fs de_u32 in
      Some {| input_tokens := i; output_tokens := o; total_tokens := t |}
  | _ => None
  end.

(** [#[derive(Serialize, Deserialize)] struct ChatRequest]: the field
    [status_callback] carries [#[serde(skip)]], so it is never written and
    is filled with [Default::default()] (= [None]) on deserialization. *)
Definition ser_request (r : ChatRequest) : sv :=
  SvStruct "ChatRequest"
    [("messages", ser_vec ser_message (req_messages r));
     ("model", ser_option ser_string (req_model r));
     ("tools", ser_option (ser_vec ser_tool) (req_tools r));
     ("inference_config", ser_option ser_inference_config (req_inference_config r));
     ("session_id", ser_option ser_uuid (req_session_id r))].
Definition de_request (v : sv) : option ChatRequest :=
  match v with
  | SvStruct _ fs =>
      let* ms := req_field "messages" fs (de_vec de_message) in
      let* model := opt_field "model" fs de_string in
      let* tools := opt_field "tools" fs (de_vec de_tool) in
      let* ic := opt_field "inference_config" fs de_inference_config in
      let* sid := opt_field "session_id" fs de_uuid in
      Some {| req_messages := ms; req_model := model; req_tools := tools;
              req_inference_config := ic; req_session_id := sid;
              req_status_callback := None |}
  | _ => None
  end.

(** [#[derive(Serialize, Deserialize)] struct ChatResponse]. *)
Definition ser_response (p : ChatResponse) : sv :=
  SvStruct "ChatResponse"
    [("message", ser_message (resp_message p));
     ("tool_calls", ser_vec ser_toolcall (resp_tool_calls p));
     ("usage", ser_option ser_usage (resp_usage p));
     ("model", ser_string (resp_model p));
     ("session_id", ser_option ser_uuid (resp_session_id p))].
Definition de_response (v : sv) : option ChatResponse :=
  match v with
  | SvStruct _ fs =>
      let* m := req_field "message" fs de_message in
      let* tcs := req_field "tool_calls" fs (de_vec de_toolcall) in
      let* u := opt_field "usage" fs de_usage in
      let* model := req_field "model" fs de_string in
      let* sid := opt_field "session_id" fs de_uuid in
      Some {| resp_message := m; resp_tool_calls := tcs; resp_usage := u;
              resp_model := model; resp_session_id := sid |}
  | _ => None
  end.

(** [#[derive(Serialize, Deserialize)] enum ChatStreamEvent]: struct variants. *)
Definition ser_event (e : ChatStreamEvent) : sv :=
  match e with
  | Start r => SvStructVariant "ChatStreamEvent" "Start" [("role", ser_role r)]
  | TextDelta t => SvStructVariant "ChatStreamEvent" "TextDelta" [("text", ser_string t)]
  | ToolCallStart id n =>
      SvStructVariant "ChatStreamEvent" "ToolCallStart"
        [("id", ser_string id); ("name", ser_string n)]
  | ToolCallDelta id i =>
      SvStructVariant "ChatStreamEvent" "ToolCallDelta"
        [("id", ser_string id); ("input", ser_string i)]
  | ToolCallEnd id => SvStructVariant "ChatStreamEvent" "ToolCallEnd" [("id", ser_string id)]
  | End u => SvStructVariant "ChatStreamEvent" "End" [("usage", ser_option ser_usage u)]
  end.
Definition de_event (v : sv) : option ChatStreamEvent :=
  match v with
  | SvStructVariant _ var fs =>
      if String.eqb var "Start" then
        let* r := req_field "role" fs de_role in Some (Start r)
      else if String.eqb var "TextDelta" then
        let* t := req_field "text" fs de_string in Some (TextDelta t)
      else if String.eqb var "ToolCallStart" then
        let* id := req_field "id" fs de_string in
        let* n := req_field "name" fs de_string in Some (ToolCallStart id n)
      else if String.eqb var "ToolCallDelta" then
        let* id := req_field "id" fs de_string in
        let* i := req_field "input" fs de_string in Some (ToolCallDelta id i)
      else if String.eqb var "ToolCallEnd" then
        let* id := req_field "id" fs de_string in Some (ToolCallEnd id)
      else if String.eqb var "End" then
        let* u := opt_field "usage" fs de_usage in Some (End u)
      else None
  | _ => None
  end.

(* ------------------------------------------------------------------ *)
(** * Display and Debug *)

(** [impl Display for BackendError], generated by [thiserror] from the
    [#[error(...)]] attributes. *)
Definition BackendError_to_string (e : BackendError) : string :=
  match e with
  | UnsupportedModel model => "Model not supported: " ++ model
  | RateLimited => "Rate limited by provider"
  | ValidationError message => "Request validation failed: " ++ message
  | AuthenticationError => "Authentication failed"
  | NetworkError message => "Network error: " ++ message
  | ProviderError message => "Provider error: " ++ message
  | InternalError message => "Internal error: " ++ message
  end.

(** [Formatter::debug_struct(name).field(k, v)...finish()] in the
    non-alternate mode: [name { k1: v1, k2: v2 }], or [name] alone when
    there are no fields. *)
Definition debug_struct_finish (name : string) (fields : list (string * string)) : string :=
  match fields with
  | [] => name
  | (k, v) :: t =>
      name ++ " { " ++ k ++ ": " ++ v ++
      fold_right (fun kv acc => ", " ++ fst kv ++ ": " ++ snd kv ++ acc) "" t ++ " }"
  end.

(** The double-quote character. *)
Definition dq : string := String "034"%char EmptyString.

(** [<Option<&str> as Debug>::fmt] for a string with no character that
    [str]'s Debug escapes (the only one formatted here is ["<callback>"]). *)
Definition debug_option_str (o : option string) : string :=
  match o with
  | None => "None"
  | Some s => "Some(" ++ dq ++ s ++ dq ++ ")"
  end.

Section ChatRequestDebug.
(** The derived Debug impls of the other field types. *)
Variable debug_messages : list Message -> string.
Variable debug_model : option string -> string.
Variable debug_tools : option (list Tool) -> string.
Variable debug_inference_config : option InferenceConfig -> string.
Variable debug_session_id : option Uuid -> string.

(** [impl std::fmt::Debug for ChatRequest]: the callback is shown as
    [self.status_callback.as_ref().map(|_| "<callback>")]. *)
Definition ChatRequest_fmt (r : ChatRequest) : string :=
  debug_struct_finish "ChatRequest"
    [("messages", debug_messages (req_messages r));
     ("model", debug_model (req_model r));
     ("tools", debug_tools (req_tools r));
     ("inference_config", debug_inference_config (req_inference_config r));
     ("session_id", debug_session_id (req_session_id r));
     ("status_callback",
        debug_option_str (option_map (fun _ => "<callback>") (req_status_callback r)))].
End ChatRequestDebug.

(* ------------------------------------------------------------------ *)
(** * Round-trip lemmas for the leaves and containers *)

(** Induction on [JsonValue] with hypotheses on the nested elements. *)
Definition JsonValue_nested_ind (P : JsonValue -> Prop)
  (Hnull : P JNull) (Hbool : forall b, P (JBool b)) (Hnum : forall n, P (JNumber n))
  (Hstr : forall s, P (JString s))
  (Harr : forall l, Forall P l -> P (JArray l))
  (Hobj : forall m, Forall (fun kv => P (snd kv)) m -> P (JObject m))
  : forall j, P j :=
  fix F j :=
    match j return P j with
    | JNull => Hnull
    | JBool b => Hbool b
    | JNumber n => Hnum n
    | JString s => Hstr s
    | JArray l =>
        Harr l ((fix G (l : list JsonValue) : Forall P l :=
                   match l with
                   | [] => Forall_nil _
                   | x :: t => Forall_cons x (F x) (G t)
                   end) l)
    | JObject m =>
        Hobj m ((fix G (m : list (string * JsonValue)) : Forall (fun kv => P (snd kv)) m :=
                   match m with
                   | [] => Forall_nil _
                   | kv :: t => Forall_cons kv (F (snd kv)) (G t)
                   end) m)
    end.

Lemma traverse_map {X A} (ser : A -> X) (de : X -> option A) (l : list A) :
  Forall (fun a => de (ser a) = Some a) l -> traverse de (map ser l) = Some l.
Proof.
  induction 1 as [|a l Ha _ IH]; [reflexivity|].
  cbn. rewrite Ha. cbn. rewrite IH. reflexivity.
Qed.

Lemma de_ser_json (j : JsonValue) : de_json (ser_json j) = Some j.
Proof.
  induction j as [| b | [n|p|f] | s | l IH | m IH] using JsonValue_nested_ind;
    try reflexivity.
  - cbn. rewrite (traverse_map ser_json de_json l IH). reflexivity.
  - cbn.
    rewrite (traverse_map (fun kv => (SvStr (fst kv), ser_json (snd kv))) _ m).
    + reflexivity.
    + eapply Forall_impl; [|exact IH].
      intros [k v] Hv. cbn in *. rewrite Hv. reflexivity.
Qed.

Lemma de_ser_uuid (u : Uuid) : de_uuid (ser_uuid u) = Some u.
Proof.
  destruct u as [l H]. unfold de_uuid, ser_uuid. cbn [uuid_bytes].
  destruct (Nat.eq_dec (length l) 16) as [H'|H'].
  - f_equal. f_equal. apply UIP_dec, Nat.eq_dec.
  - contradiction.
Qed.

Lemma de_ser_option {A} (ser : A -> sv) (de : sv -> option A) (o : option A) :
  (forall a, de (ser a) = Some a) -> de_option de (ser_option ser o) = Some o.
Proof.
  intros H. destruct o as [a|]; cbn; [rewrite H|]; reflexivity.
Qed.

Lemma de_ser_vec {A} (ser : A -> sv) (de : sv -> option A) (l : list A) :
  (forall a, de (ser a) = Some a) -> de_vec de (ser_vec ser l) = Some l.
Proof.
  intros H. apply traverse_map, Forall_forall. intros a _. apply H.
Qed.

Lemma de_ser_string (s : string) : de_string (ser_string s) = Some s.
Proof. reflexivity. Qed.

Lemma de_ser_u32 (n : N) : de_u32 (ser_u32 n) = Some n.
Proof. reflexivity. Qed.

Lemma de_ser_f32 (f : float) : de_f32 (ser_f32 f) = Some f.
Proof. reflexivity. Qed.

Lemma de_ser_role (r : MessageRole) : de_role (ser_role r) = Some r.
Proof. destruct r; reflexivity. Qed.

Create HintDb serde.
#[local] Hint Resolve de_ser_json de_ser_uuid de_ser_string de_ser_u32 de_ser_f32
  de_ser_role : serde.

(** Side conditions: a codec pair round-trips, possibly under [Vec]. *)
Ltac serde_side :=
  intros; first [ solve [auto with serde] | apply de_ser_vec; solve [auto with serde] ].

(** Rewrite every leaf or container round-trip in the goal, then compute. *)
Ltac serde_rt :=
  repeat first
    [ rewrite de_ser_json | rewrite de_ser_uuid | rewrite de_ser_role
    | rewrite de_ser_string | rewrite de_ser_u32
    | rewrite de_ser_option by serde_side
    | rewrite de_ser_vec by serde_side
    | progress cbn [obind] ].

Lemma de_ser_toolcall (c : ToolCall) : de_toolcall (ser_toolcall c) = Some c.
Proof. destruct c. cbn -[de_json ser_json]. serde_rt. reflexivity. Qed.
#[local] Hint Resolve de_ser_toolcall : serde.

Lemma de_ser_tool (t : Tool) : de_tool (ser_tool t) = Some t.
Proof. destruct t. cbn -[de_json ser_json]. serde_rt. reflexivity. Qed.
#[local] Hint Resolve de_ser_tool : serde.

Lemma de_ser_block (b : ContentBlock) : de_block (ser_block b) = Some b.
Proof.
  destruct b; cbn -[de_toolcall ser_toolcall]; try reflexivity.
  rewrite de_ser_toolcall. reflexivity.
Qed.
#[local] Hint Resolve de_ser_block : serde.

Lemma de_ser_message (m : Message) : de_message (ser_message m) = Some m.
Proof.
  destruct m. cbn -[de_role ser_role de_vec ser_vec]. serde_rt. reflexivity.
Qed.
#[local] Hint Resolve de_ser_message : serde.

Lemma de_ser_inference_config (c : InferenceConfig) :
  de_inference_config (ser_inference_config c) = Some c.
Proof.
  destruct c. cbn -[de_option ser_option]. serde_rt. reflexivity.
Qed.
#[local] Hint Resolve de_ser_inference_config : serde.

Lemma de_ser_usage (u : Usage) : de_usage (ser_usage u) = Some u.
Proof. destruct u. reflexivity. Qed.
#[local] Hint Resolve de_ser_usage : serde.

(* ------------------------------------------------------------------ *)
(** * Sanity checks on concrete inputs *)

Example is_retryable_network : is_retryable (NetworkError "timeout") = true.
Proof. reflexivity. Qed.

Example is_retryable_auth : is_retryable AuthenticationError = false.
Proof. reflexivity. Qed.

Example default_delay_ms : Duration_as_millis (initial_delay RetryConfig_default) = 2000%N.
Proof. reflexivity. Qed.

Example text_hello : Message_text User "Hello" = {| role := User; content := [Text "Hello"] |}.
Proof. reflexivity. Qed.

Example request_roundtrip_drops_callback :
  de_request (ser_request {| req_messages := [Message_text User "Hello"];
                             req_model := Some "m"; req_tools := None;
                             req_inference_config := Some InferenceConfig_default;
                             req_session_id := None;
                             req_status_callback := Some (fun _ => tt) |})
  = Some {| req_messages := [Message_text User "Hello"];
            req_model := Some "m"; req_tools := None;
            req_inference_config := Some InferenceConfig_default;
            req_session_id := None; req_status_callback := None |}.
Proof. reflexivity. Qed.

(* ------------------------------------------------------------------ *)
(** * Claims *)

(** C1: [BackendError::is_retryable] is true exactly for [RateLimited] and
    [NetworkError], and false for the other five variants
    ([UnsupportedModel], [ValidationError], [AuthenticationError],
    [ProviderError], [InternalError]). *)
Theorem is_retryable_exactly (e : BackendError) :
  (is_retryable e = true <-> (e = RateLimited \/ exists m, e = NetworkError m)) /\
  (forall m, is_retryable (UnsupportedModel m) = false) /\
  (forall m, is_retryable (ValidationError m) = false) /\
  is_retryable AuthenticationError = false /\
  (forall m, is_retryable (ProviderError m) = false) /\
  (forall m, is_retryable (InternalError m) = false).
Proof.
  repeat split; try reflexivity.
  - destruct e; cbn; try discriminate; intros _; eauto.
  - intros [-> | [m ->]]; reflexivity.
Qed.

(** C2: [RetryConfig::default()] has [max_retries = 10], an initial delay
    of [Duration::from_millis(2000)] (2000 ms), an [Exponential] backoff
    with multiplier 3, and [verbose = false]. *)
Theorem retry_config_default_fields :
  max_retries RetryConfig_default = 10%N /\
  initial_delay RetryConfig_default = Duration_from_millis 2000 /\
  Duration_as_millis (initial_delay RetryConfig_default) = 2000%N /\
  backoff_strategy RetryConfig_default = Exponential 3 /\
  verbose RetryConfig_default = false.
Proof. repeat split. Qed.

(** C3: serializing through the derived [Serialize] impls into serde's data
    model and deserializing with the derived [Deserialize] impls gives back
    every [ChatResponse] and every [ChatStreamEvent] unchanged, and every
    [ChatRequest] unchanged except [status_callback] ([#[serde(skip)]]),
    which comes back [None] whatever it was. The data model carries every
    leaf exactly; a concrete format that does not (serde_json writes a
    non-finite [f32] as [null], read back as [None]) adds its own loss on
    top of this. *)
Theorem serde_roundtrip :
  (forall r : ChatRequest,
      de_request (ser_request r) =
      Some {| req_messages := req_messages r; req_model := req_model r;
              req_tools := req_tools r;
              req_inference_config := req_inference_config r;
              req_session_id := req_session_id r;
              req_status_callback := None |}) /\
  (forall p : ChatResponse, de_response (ser_response p) = Some p) /\
  (forall e : ChatStreamEvent, de_event (ser_event e) = Some e).
Proof.
  split; [|split].
  - intros [ms model tools ic sid cb].
    cbn -[de_vec ser_vec de_option ser_option de_message ser_message
          de_tool ser_tool de_inference_config ser_inference_config de_uuid ser_uuid].
    serde_rt. reflexivity.
  - intros [m tcs u model sid].
    cbn -[de_vec ser_vec de_option ser_option de_message ser_message
          de_toolcall ser_toolcall de_usage ser_usage de_uuid ser_uuid].
    rewrite de_ser_message. serde_rt. reflexivity.
  - intros []; cbn -[de_role ser_role de_option ser_option de_usage ser_usage];
      serde_rt; reflexivity.
Qed.

(** C4: for every role [r] and string [s], [Message::text(r, s)] has role
    [r] and content consisting of exactly one block, [Text(s)]. *)
Theorem message_text_spec (r : MessageRole) (s : string) :
  role (Message_text r s) = r /\ content (Message_text r s) = [Text s].
Proof. split; reflexivity. Qed.

(** C5: [InferenceConfig::default()] has temperature [Some(0.7)], top_p
    [Some(0.9)] and max_tokens [Some(4096)]; the two [f32] literals are
    11744051 * 2^-24 and 15099494 * 2^-24, each within half a unit in the
    last place of 0.7 and 0.9 respectively. *)
Theorem inference_config_default_fields :
  temperature InferenceConfig_default = Some (f32_lit 7 10) /\
  top_p InferenceConfig_default = Some (f32_lit 9 10) /\
  max_tokens InferenceConfig_default = Some 4096%N /\
  f32_lit 7 10 = FFinite {| ff_neg := false; ff_mant := 11744051; ff_exp := -24 |} /\
  f32_lit 9 10 = FFinite {| ff_neg := false; ff_mant := 15099494; ff_exp := -24 |} /\
  (Z.abs (10 * 11744051 - 7 * 2 ^ 24) <= 5)%Z /\
  (Z.abs (10 * 15099494 - 9 * 2 ^ 24) <= 5)%Z.
Proof. repeat split; try vm_compute; try reflexivity; discriminate. Qed.

(** C9: [Message::with_tool_calls(r, s, cs)] has role [r] and content
    [Text(s)] followed by each element of [cs] wrapped as
    [ContentBlock::ToolCall], in order; so the text block comes first and
    the content has length [1 + length cs]. *)
Theorem with_tool_calls_spec (r : MessageRole) (s : string) (cs : list ToolCall) :
  role (Message_with_tool_calls r s cs) = r /\
  content (Message_with_tool_calls r s cs) = Text s :: map ToolCallBlock cs /\
  length (content (Message_with_tool_calls r s cs)) = S (length cs).
Proof.
  split; [reflexivity|split]; [reflexivity|].
  cbn. rewrite length_map. reflexivity.
Qed.

(** C10: [Message::tool_result(t, s)] always has role [User] (never
    [Assistant] or [System]) and content exactly one
    [ToolResult { tool_call_id: t, result: s }] block. *)
Theorem tool_result_spec (t s : string) :
  role (Message_tool_result t s) = User /\
  role (Message_tool_result t s) <> Assistant /\
  role (Message_tool_result t s) <> System /\
  content (Message_tool_result t s) = [ToolResult t s].
Proof. repeat split; cbn; discriminate. Qed.

(* ------------------------------------------------------------------ *)
(** * Further properties of src/lib.rs *)

Lemma string_append_inj_l (p a b : string) : p ++ a = p ++ b -> a = b.
Proof. induction p as [|c p IH]; cbn; [auto|]. intros H. injection H. auto. Qed.

Lemma string_length_append (a b : string) :
  String.length (a ++ b) = (String.length a + String.length b)%nat.
Proof. induction a as [|c a IH]; cbn; [reflexivity|]. now rewrite IH. Qed.


Lemma field_cons_neq (k k' : string) (v : sv) (fs : list (string * sv)) :
  k <> k' -> field k ((k', v) :: fs) = field k fs.
Proof.
  intros Hne. cbn. destruct (String.eqb_spec k k'); [contradiction | reflexivity].
Qed.

Lemma de_ser_request (r : ChatRequest) :
  de_request (ser_request r) = Some {| req_messages := req_messages r; req_model := req_model r;
    req_tools := req_tools r; req_inference_config := req_inference_config r;
    req_session_id := req_session_id r; req_status_callback := None |}.
Proof.
  destruct r as [ms model tools ic sid cb].
  cbn -[de_vec ser_vec de_option ser_option de_message ser_message
        de_tool ser_tool de_inference_config ser_inference_config de_uuid ser_uuid].
  serde_rt. reflexivity.
Qed.

Lemma de_ser_response (p : ChatResponse) : de_response (ser_response p) = Some p.
Proof.
  destruct p as [m tcs u model sid].
  cbn -[de_vec ser_vec de_option ser_option de_message ser_message
        de_toolcall ser_toolcall de_usage ser_usage de_uuid ser_uuid].
  rewrite de_ser_message. serde_rt. reflexivity.
Qed.

Lemma de_ser_event (e : ChatStreamEvent) : de_event (ser_event e) = Some e.
Proof.
  destruct e; cbn -[de_role ser_role de_option ser_option de_usage ser_usage];
    serde_rt; reflexivity.
Qed.

(** Display: every message of a variant starts with the variant's own fixed
    text, and two variants' fixed texts already differ within their first
    few characters. *)
Theorem BackendError_to_string_injective (e1 e2 : BackendError) :
  BackendError_to_string e1 = BackendError_to_string e2 <-> e1 = e2.
Proof.
  split; [|intros ->; reflexivity].
  destruct e1, e2; cbn; intros H; try discriminate; try reflexivity;
    repeat (injection H as H); subst; reflexivity.
Qed.


(** Debug for [ChatRequest] shows whether a callback is installed. *)
Theorem ChatRequest_fmt_shows_callback_presence dm dmo dt di ds (r : ChatRequest)
    (cb : StatusCallback) :
  ChatRequest_fmt dm dmo dt di ds
    {| req_messages := req_messages r; req_model := req_model r; req_tools := req_tools r;
       req_inference_config := req_inference_config r; req_session_id := req_session_id r;
       req_status_callback := None |} <>
  ChatRequest_fmt dm dmo dt di ds
    {| req_messages := req_messages r; req_model := req_model r; req_tools := req_tools r;
       req_inference_config := req_inference_config r; req_session_id := req_session_id r;
       req_status_callback := Some cb |}.
Proof.
  intros H. apply (f_equal String.length) in H.
  unfold ChatRequest_fmt, debug_struct_finish in H. cbn [fold_right fst snd option_map
    req_messages req_model req_tools req_inference_config req_session_id
    req_status_callback debug_option_str] in H.
  rewrite !string_length_append in H. cbn in H. lia.
Qed.



(** A [ChatRequest] given only its [messages] field deserializes with every
    [Option] field [None]. *)
Theorem de_request_only_messages (n : string) (ms : list Message) :
  de_request (SvStruct n [("messages", ser_vec ser_message ms)]) =
  Some {| req_messages := ms; req_model := None; req_tools := None;
          req_inference_config := None; req_session_id := None;
          req_status_callback := None |}.
Proof.
  cbn -[de_vec ser_vec].
  rewrite de_ser_vec by serde_side. reflexivity.
Qed.

(** Without a [messages] field, a [ChatRequest] does not deserialize. *)
Theorem de_request_missing_messages (n : string) (fs : list (string * sv)) :
  field "messages" fs = None -> de_request (SvStruct n fs) = None.
Proof. intros H. unfold de_request, req_field. rewrite H. reflexivity. Qed.

Lemma de_request_missing_messages_witness :
  field "messages" [("model", SvNone)] = None /\
  de_request (SvStruct "ChatRequest" [("model", SvNone)]) = None.
Proof.
  split; [reflexivity|].
  apply de_request_missing_messages. reflexivity.
Defined.

(** A [ChatResponse] without any one of its required fields [message],
    [tool_calls] or [model] does not deserialize. *)
Theorem de_response_missing_required (n k : string) (fs : list (string * sv)) :
  In k ["message"; "tool_calls"; "model"] -> field k fs = None ->
  de_response (SvStruct n fs) = None.
Proof.
  intros Hk H. unfold de_response, req_field, opt_field.
  destruct Hk as [<- | [<- | [<- | []]]]; rewrite H; cbn [obind];
    repeat match goal with
           | |- context [obind ?m _] => destruct m; cbn [obind]
           | |- context [match ?m with Some _ => _ | None => _ end] => destruct m
           end; reflexivity.
Qed.

Lemma de_response_missing_required_witness :
  In "model" ["message"; "tool_calls"; "model"] /\
  field "model" [("message", ser_message (Message_text User "hi"));
                 ("tool_calls", SvSeq [])] = None /\
  de_response (SvStruct "ChatResponse"
                 [("message", ser_message (Message_text User "hi"));
                  ("tool_calls", SvSeq [])]) = None.
Proof.
  split; [cbn; tauto|split; [reflexivity|]].
  apply (de_response_missing_required "ChatResponse" "model"); [cbn; tauto | reflexivity].
Defined.

(** A [ChatRequest] field whose name is none of the five serialized ones
    (such as ["status_callback"], which is skipped) is ignored. *)
Theorem de_request_ignores_unknown_field (n k : string) (v : sv) (fs : list (string * sv)) :
  ~ In k ["messages"; "model"; "tools"; "inference_config"; "session_id"] ->
  de_request (SvStruct n ((k, v) :: fs)) = de_request (SvStruct n fs).
Proof.
  intros Hk. unfold de_request, req_field, opt_field.
  rewrite !(field_cons_neq _ k v fs)
    by (intros Heq; apply Hk; rewrite <- Heq; cbn; tauto).
  reflexivity.
Qed.

Lemma de_request_ignores_unknown_field_witness :
  ~ In "status_callback" ["messages"; "model"; "tools"; "inference_config"; "session_id"] /\
  de_request (SvStruct "ChatRequest" [("status_callback", SvStr "x"); ("messages", SvSeq [])]) =
  de_request (SvStruct "ChatRequest" [("messages", SvSeq [])]).
Proof.
  split; [cbn; intros H; repeat destruct H as [H|H]; discriminate H || contradiction|].
  apply de_request_ignores_unknown_field.
  cbn; intros H; repeat destruct H as [H|H]; discriminate H || contradiction.
Defined.

(** Deserializing a [ChatStreamEvent] from a variant name other than its
    six fails. *)
Theorem de_event_unknown_variant (n var : string) (fs : list (string * sv)) :
  ~ In var ["Start"; "TextDelta"; "ToolCallStart"; "ToolCallDelta"; "ToolCallEnd"; "End"] ->
  de_event (SvStructVariant n var fs) = None.
Proof.
  intros Hv. cbn [de_event].
  repeat match goal with
         | |- context [String.eqb var ?c] =>
             destruct (String.eqb_spec var c) as [->|_]; [exfalso; apply Hv; cbn; tauto|]
         end.
  reflexivity.
Qed.

Lemma de_event_unknown_variant_witness :
  ~ In "Stop" ["Start"; "TextDelta"; "ToolCallStart"; "ToolCallDelta"; "ToolCallEnd"; "End"] /\
  de_event (SvStructVariant "ChatStreamEvent" "Stop" []) = None.
Proof.
  split; [cbn; intros H; repeat destruct H as [H|H]; discriminate H || contradiction|].
  apply de_event_unknown_variant.
  cbn; intros H; repeat destruct H as [H|H]; discriminate H || contradiction.
Defined.

(** Two requests serialize identically exactly when they agree on every
    field but the callback. *)
Theorem ser_request_eq_iff (r1 r2 : ChatRequest) :
  ser_request r1 = ser_request r2 <->
  req_messages r1 = req_messages r2 /\ req_model r1 = req_model r2 /\
  req_tools r1 = req_tools r2 /\ req_inference_config r1 = req_inference_config r2 /\
  req_session_id r1 = req_session_id r2.
Proof.
  split.
  - intros H. apply (f_equal de_request) in H.
    rewrite !de_ser_request in H. injection H. tauto.
  - destruct r1, r2; cbn. intros (-> & -> & -> & -> & ->). reflexivity.
Qed.

(** Serialization of [ChatResponse] values is injective. *)
Theorem ser_response_injective (p1 p2 : ChatResponse) :
  ser_response p1 = ser_response p2 <-> p1 = p2.
Proof.
  split; [|intros ->; reflexivity].
  intros H. apply (f_equal de_response) in H. rewrite !de_ser_response in H. congruence.
Qed.

(** Serialization of [ChatStreamEvent] values is injective. *)
Theorem ser_event_injective (e1 e2 : ChatStreamEvent) :
  ser_event e1 = ser_event e2 <-> e1 = e2.
Proof.
  split; [|intros ->; reflexivity].
  intros H. apply (f_equal de_event) in H. rewrite !de_ser_event in H. congruence.
Qed.

(** [Message::with_tool_calls] with no tool calls is [Message::text]. *)
Theorem with_tool_calls_nil (r : MessageRole) (s : string) :
  Message_with_tool_calls r s [] = Message_text r s.
Proof. reflexivity. Qed.
